(** * The network layer of my-little-traceroute (Go package [network])

    A shallow embedding of [internal/network/icmp.go] and
    [internal/network/udp.go], with the properties their specification
    states about them.

    The package is a thin layer over Go's standard library and over
    [golang.org/x/net]: every function of it is a few library calls and the
    handling of their results.  The embedding keeps that shape.  The
    library is an interface (the classes [Codec] and [Platform], and the
    records [SyscallConn] and [ICMPPacketConn] for the Go interfaces of the
    same names); the functions of the package are written over it, call by
    call, in a state monad over the world the library acts on.  What a theorem
    needs to know about a library call is a hypothesis of that theorem. *)

From Stdlib Require Import ZArith.
From Stdlib.Strings Require Import Byte.
From stdpp Require Import base gmap list strings.

(** ** Go values *)

(** The values of Go's [error] interface that the package builds or meets.
    [fmt.Errorf] without a [%w] verb builds an [*errors.errorString]; with
    one [%w] it builds a [*fmt.wrapError], which keeps the formatted text and
    the wrapped error.  An error coming out of a library is seen by the
    package through its text and, when it implements [net.Error], through
    its [Timeout()] method: [net] is [Some t] for such an error, with [t]
    what [Timeout()] answers. *)
Inductive error : Type :=
| errorString (s : string)
| wrapError (msg : string) (err : error)
| libError (msg : string) (net : option bool).

(** [err.Error()] *)
Definition Error (e : error) : string :=
  match e with
  | errorString s => s
  | wrapError msg _ => msg
  | libError msg _ => msg
  end.

(** [errors.Unwrap(err)] *)
Definition Unwrap (e : error) : option error :=
  match e with
  | wrapError _ err => Some err
  | _ => None
  end.

(** [netErr, ok := err.(net.Error)] followed by [netErr.Timeout()]: [None]
    when the assertion fails. *)
Definition net_Error_Timeout (e : error) : option bool :=
  match e with
  | libError _ net => net
  | _ => None
  end.

(** [fmt.Errorf(s)], no verb in [s]. *)
Definition fmt_Errorf (s : string) : error := errorString s.

(** [fmt.Errorf(prefix + "%v", x)], with [shown] the text [%v] gives [x]. *)
Definition fmt_Errorf_v (prefix shown : string) : error :=
  errorString (prefix +:+ shown).

(** [fmt.Errorf(prefix + "%w", err)] *)
Definition fmt_Errorf_w (prefix : string) (err : error) : error :=
  wrapError (prefix +:+ Error err) err.

(** The value of a byte, [int(b)]. *)
Definition byte_Z (b : byte) : Z := Z.of_N (Byte.to_N b).

(** [binary.BigEndian.Uint16] on two bytes. *)
Definition be16 (hi lo : byte) : Z := (byte_Z hi * 256 + byte_Z lo)%Z.

(** ** The types of [golang.org/x/net] the decoder handles *)

Module ipv4.

(** [type ICMPType int], with the two constants the package names. *)
Definition ICMPType := Z.
Definition ICMPTypeEchoReply : ICMPType := 0%Z.
Definition ICMPTypeTimeExceeded : ICMPType := 11%Z.

(** [ipv4.Header]; [Src] and [Dst] are [net.IP], a byte slice. *)
Record Header : Type := {
  Version : Z;
  Len : Z;
  TOS : Z;
  TotalLen : Z;
  ID : Z;
  Flags : Z;
  FragOff : Z;
  TTL : Z;
  Protocol : Z;
  Checksum : Z;
  Src : list byte;
  Dst : list byte;
  Options : list byte
}.

End ipv4.

Module icmp.

(** The interface [icmp.Type]: its implementations are [ipv4.ICMPType] and
    [ipv6.ICMPType].  The constructor is the dynamic type that a type
    assertion looks at. *)
Inductive Type_ : Type :=
| ipv4_ICMPType (t : ipv4.ICMPType)
| ipv6_ICMPType (t : Z).

(** The interface [icmp.MessageBody], by dynamic type.  Of a
    [*icmp.TimeExceeded] the package reads the field [Data] only. *)
Inductive MessageBody : Type :=
| TimeExceeded (Data : list byte)
| DstUnreach (Data : list byte)
| ParamProb (Pointer : Z) (Data : list byte)
| Echo (ID Seq : Z) (Data : list byte)
| RawBody (Data : list byte).

(** [icmp.Message] *)
Record Message : Type := {
  Type' : Type_;
  Code : Z;
  Checksum : Z;
  Body : MessageBody
}.

End icmp.

(** The pure functions of [golang.org/x/net] that the decoder calls.  A
    library function returning [(T, error)] is a sum: [inl] the value with a
    nil error, [inr] the error. *)
Class Codec : Type := {
  (** [icmp.ParseMessage(proto, b)] *)
  icmp_ParseMessage : Z -> list byte -> icmp.Message + error;
  (** [ipv4.ParseHeader(b)] *)
  ipv4_ParseHeader : list byte -> ipv4.Header + error;
  (** the text [%v] gives a value of the interface [icmp.Type] *)
  icmp_Type_String : icmp.Type_ -> string
}.

(** ** [icmp.go]: the decoder *)

(** The three results of the decoder: [(ipv4.ICMPType, *ipv4.Header, error)],
    a nil pointer or a nil error being [None]. *)
Definition Decoded : Type := ipv4.ICMPType * option ipv4.Header * option error.

Section Decoder.
Context `{Codec}.

(** [func parseTimeExceededMessage(m *icmp.Message)] *)
Definition parseTimeExceededMessage (m : icmp.Message) : Decoded :=
  match icmp.Body m with
  | icmp.TimeExceeded Data =>
      match ipv4_ParseHeader Data with
      | inr err =>
          (ipv4.ICMPTypeTimeExceeded, None,
           Some (fmt_Errorf_w "failed to parse IP header: " err))
      | inl header => (ipv4.ICMPTypeTimeExceeded, Some header, None)
      end
  | _ =>
      (ipv4.ICMPTypeTimeExceeded, None,
       Some (fmt_Errorf "invalid TimeExceeded message body"))
  end.

(** [func ParseICMPMessage(msg []byte)] *)
Definition ParseICMPMessage (msg : list byte) : Decoded :=
  match icmp_ParseMessage 1 msg with
  | inr err =>
      (0%Z, None, Some (fmt_Errorf_w "failed to parse ICMP message: " err))
  | inl m =>
      match icmp.Type' m with
      | icmp.ipv4_ICMPType icmpType =>
          if (icmpType =? ipv4.ICMPTypeTimeExceeded)%Z then
            parseTimeExceededMessage m
          else if (icmpType =? ipv4.ICMPTypeEchoReply)%Z then
            (icmpType, None, None)
          else
            (icmpType, None,
             Some (fmt_Errorf_v "unexpected ICMP message type: "
                     (icmp_Type_String (icmp.ipv4_ICMPType icmpType))))
      | other =>
          (0%Z, None,
           Some (fmt_Errorf_v "unexpected ICMP message type: "
                   (icmp_Type_String other)))
      end
  end.

End Decoder.

(** ** Effects *)

(** A call returns or panics. *)
Inductive Outcome (A : Type) : Type :=
| Returns (a : A)
| Panics (reason : string).
Arguments Returns {A} a.
Arguments Panics {A} reason.

(** A computation over the world [W] that the library acts on (sockets, the
    clock, the standard error stream).  A panic ends it. *)
Definition M (W : Type) (A : Type) : Type := W -> Outcome A * W.

#[global] Instance M_ret {W} : MRet (M W) := λ A a w, (Returns a, w).

#[global] Instance M_bind {W} : MBind (M W) := λ A B k m w,
  match m w with
  | (Returns a, w') => k a w'
  | (Panics reason, w') => (Panics reason, w')
  end.

Definition panic {W A} (reason : string) : M W A := λ w, (Panics reason, w).

(** ** Go's standard library, as the package uses it *)

Module net.

(** [net.IP], a byte slice; the nil slice is the empty list. *)
Definition IP : Type := list byte.

Record UDPAddr : Type := { UDPAddr_IP : IP; UDPAddr_Port : Z; UDPAddr_Zone : string }.

Record IPAddr : Type := { IPAddr_IP : IP; IPAddr_Zone : string }.

(** The interface [net.Addr], by dynamic type: nil, a [*net.IPAddr], a
    [*net.UDPAddr]. *)
Inductive Addr : Type :=
| nil_Addr
| IPAddr_ptr (a : IPAddr)
| UDPAddr_ptr (a : UDPAddr).

(** A [*net.UDPConn], by the identity of the socket it points to. *)
Definition UDPConn : Type := N.

End net.

(** [uintptr] and the conversion [int(fd)] (two's complement, 64 bits). *)
Definition uintptr : Type := Z.
Definition int (x : Z) : Z := ((x + 2 ^ 63) mod 2 ^ 64 - 2 ^ 63)%Z.

(** [make([]byte, n)] *)
Definition make_bytes (n : Z) : list byte := replicate (Z.to_nat n) x00.

(** What a slice [b] holds after a callee has written [stored] into it: a
    callee can change the cells of [b], not their number. *)
Definition overwrite (b stored : list byte) : list byte :=
  take (length b) stored ++ drop (length stored) b.

(** [b[:n]] for a slice whose capacity is its length; out of range it
    panics. *)
Definition slice_to {W} (b : list byte) (n : Z) : M W (list byte) :=
  if decide (0 ≤ n ≤ Z.of_nat (length b))%Z then mret (take (Z.to_nat n) b)
  else panic "slice bounds out of range".

(** The type assertion of [peer] to a pointer to [net.IPAddr], then its field
    [IP]; the assertion panics on another dynamic type. *)
Definition assert_IPAddr_IP {W} (peer : net.Addr) : M W net.IP :=
  match peer with
  | net.IPAddr_ptr a => mret (net.IPAddr_IP a)
  | _ => panic "interface conversion: net.Addr is not *net.IPAddr"
  end.

(** The line feed that ends the message written to the standard error. *)
Definition LF : string := String (Ascii.ascii_of_nat 10) EmptyString.

(** ** The interfaces of the package *)

(** [type SyscallConn interface { Control(func(fd uintptr)) error }] *)
Record SyscallConn (W : Type) : Type := {
  Control : (uintptr -> M W ()) -> M W (option error)
}.
Arguments Control {W} _ _.

(** [type ICMPPacketConn interface], the methods of [icmp.PacketConn] that the
    package calls ([icmp_test.go]).  [ReadFrom(b)] answers [(n, peer, err)] and
    leaves bytes in [b]: the fourth component is what it stored. *)
Record ICMPPacketConn (W T : Type) : Type := {
  ReadFrom : list byte -> M W (Z * net.Addr * option error * list byte);
  SetReadDeadline : T -> M W (option error);
  Close : M W (option error)
}.
Arguments ReadFrom {W T} _ _.
Arguments SetReadDeadline {W T} _ _.
Arguments Close {W T} _.

(** The effectful library functions the package calls, over a world [W] and a
    type [T] of instants ([time.Time]). *)
Class Platform (W T : Type) : Type := {
  (** [time.Now()] and [t.Add(d)], [d] a [time.Duration] *)
  time_Now : M W T;
  Time_Add : T -> Z -> T;
  (** [net.ResolveUDPAddr(network, address)] *)
  net_ResolveUDPAddr : string -> string -> M W (net.UDPAddr + error);
  (** [net.ListenUDP(network, laddr)] *)
  net_ListenUDP : string -> net.UDPAddr -> M W (net.UDPConn + error);
  (** [conn.SyscallConn()] on a [*net.UDPConn] *)
  net_UDPConn_SyscallConn : net.UDPConn -> M W (SyscallConn W + error);
  (** [conn.WriteToUDP(b, addr)] *)
  net_UDPConn_WriteToUDP : net.UDPConn -> list byte -> net.UDPAddr -> M W (Z * option error);
  (** [conn.Close()] *)
  net_UDPConn_Close : net.UDPConn -> M W (option error);
  (** [syscall.SetsockoptInt(fd, level, opt, value)] and the two constants *)
  syscall_SetsockoptInt : Z -> Z -> Z -> Z -> M W (option error);
  syscall_IPPROTO_IP : Z;
  syscall_IP_TTL : Z;
  (** [fmt.Fprintf(os.Stderr, ...)] with the formatted text; the package
      drops its results *)
  fmt_Fprintf_Stderr : string -> M W ();
  (** [icmp.ListenPacket(network, address)] *)
  icmp_ListenPacket : string -> string -> M W (ICMPPacketConn W T + error)
}.

(** ** [udp.go]: the probe sender *)

(** [type UDPConn struct { *net.UDPConn; syscallConn SyscallConn }] *)
Record UDPConn (W : Type) : Type := {
  embedded_UDPConn : net.UDPConn;
  syscallConn : SyscallConn W
}.
Arguments embedded_UDPConn {W} _.
Arguments syscallConn {W} _.

Section ProbeSender.
Context {W T : Type} `{Platform W T}.

(** [func NewUDPConn(localAddr string)], returning a [UDPConn] pointer and an
    error *)
Definition NewUDPConn (localAddr : string) : M W (option (UDPConn W) * option error) :=
  r ← net_ResolveUDPAddr "udp4" localAddr;
  match r with
  | inr err =>
      mret (None, Some (fmt_Errorf_w "failed to resolve local address: " err))
  | inl addr =>
      r ← net_ListenUDP "udp4" addr;
      match r with
      | inr err =>
          mret (None, Some (fmt_Errorf_w "failed to create UDP connection: " err))
      | inl conn =>
          r ← net_UDPConn_SyscallConn conn;
          match r with
          | inr err =>
              _ ← net_UDPConn_Close conn;
              mret (None, Some (fmt_Errorf_w "failed to get syscall conn: " err))
          | inl rawConn =>
              mret (Some {| embedded_UDPConn := conn; syscallConn := rawConn |}, None)
          end
      end
  end.

(** The function literal that [SetTTL] hands to [Control]. *)
Definition SetTTL_closure (ttl : Z) (fd : uintptr) : M W () :=
  err ← syscall_SetsockoptInt (int fd) syscall_IPPROTO_IP syscall_IP_TTL ttl;
  match err with
  | Some err => fmt_Fprintf_Stderr ("failed to set TTL: " +:+ Error err +:+ LF)
  | None => mret ()
  end.

(** [func (c *UDPConn) SetTTL(ttl int) error] *)
Definition SetTTL (c : UDPConn W) (ttl : Z) : M W (option error) :=
  Control (syscallConn c) (SetTTL_closure ttl).

(** [func (c *UDPConn) SendEmptyPacket(addr *net.UDPAddr) error] *)
Definition SendEmptyPacket (c : UDPConn W) (addr : net.UDPAddr) : M W (option error) :=
  '(_, err) ← net_UDPConn_WriteToUDP (embedded_UDPConn c) [] addr;
  match err with
  | Some err => mret (Some (fmt_Errorf_w "failed to send UDP packet: " err))
  | None => mret None
  end.

(** [func (c *UDPConn) Close() error] *)
Definition UDPConn_Close (c : UDPConn W) : M W (option error) :=
  net_UDPConn_Close (embedded_UDPConn c).

End ProbeSender.

(** ** [icmp.go]: the response listener *)

(** [AllInterfaces] and [MaxPacketSize] *)
Definition AllInterfaces : string := "0.0.0.0".
Definition MaxPacketSize : Z := 1500.

(** [type ICMPConn struct { conn ... }] *)
Record ICMPConn (W T : Type) : Type := {
  conn : ICMPPacketConn W T
}.
Arguments conn {W T} _.

(** The three results of [ReadWithTimeout]: [(net.IP, []byte, error)]. *)
Definition Received : Type := net.IP * list byte * option error.

Section ResponseListener.
Context {W T : Type} `{Platform W T}.

(** [func NewICMPConn()], returning an [ICMPConn] pointer and an error *)
Definition NewICMPConn : M W (option (ICMPConn W T) * option error) :=
  r ← icmp_ListenPacket "ipv4:icmp" AllInterfaces;
  match r with
  | inr err =>
      mret (None, Some (fmt_Errorf_w "failed to create ICMP connection: " err))
  | inl conn => mret (Some {| conn := conn |}, None)
  end.

(** [func (c *ICMPConn) ReadWithTimeout(timeout time.Duration)] *)
Definition ReadWithTimeout (c : ICMPConn W T) (timeout : Z) : M W Received :=
  now ← time_Now;
  err ← SetReadDeadline (conn c) (Time_Add now timeout);
  match err with
  | Some err =>
      mret ([], [], Some (fmt_Errorf_w "failed to set read deadline: " err))
  | None =>
      let buffer := make_bytes MaxPacketSize in
      '(n, peer, err, stored) ← ReadFrom (conn c) buffer;
      let buffer := overwrite buffer stored in
      match err with
      | Some err =>
          match net_Error_Timeout err with
          | Some true => mret ([], [], Some (fmt_Errorf "read timeout"))
          | _ =>
              mret ([], [], Some (fmt_Errorf_w "failed to read ICMP message: " err))
          end
      | None =>
          ip ← assert_IPAddr_IP peer;
          data ← slice_to buffer n;
          mret (ip, data, None)
      end
  end.

(** [func (c *ICMPConn) Close() error] *)
Definition ICMPConn_Close (c : ICMPConn W T) : M W (option error) :=
  Close (conn c).

End ResponseListener.

(** ** What the outside sees *)

(** A datagram handed to the network: where it goes and what it carries. *)
Record Datagram : Type := { dst : net.UDPAddr; payload : list byte }.

(** A [SyscallConn] that reaches the network, observed through [wire], only
    through the function it is given to run. *)
Definition Control_silent {W} (wire : W → list Datagram) (sc : SyscallConn W) : Prop :=
  ∀ f w r w',
    (∀ fd v r' v', f fd v = (r', v') → wire v' = wire v) →
    Control sc f w = (r, w') → wire w' = wire w.

(** ** The mocks of the test files *)

(** [MockSyscallConn] ([udp_test.go]): [Control] answers the error it was
    set up with and does not run the function it is given. *)
Definition MockSyscallConn {W} (ret : option error) : SyscallConn W :=
  {| Control := λ _, mret ret |}.

(** [MockICMPConn] ([icmp_test.go]): every method answers what it was set up
    with; [ReadFrom] leaves the buffer as it is, and its assertion of the
    address to [net.Addr] panics on nil. *)
Definition MockICMPConn {W T} (read : Z * net.Addr * option error)
    (deadline close : option error) : ICMPPacketConn W T :=
  {| ReadFrom := λ b,
       match read with
       | (_, net.nil_Addr, _) => panic "interface conversion: interface is nil, not net.Addr"
       | (n, addr, err) => mret (n, addr, err, b)
       end;
     SetReadDeadline := λ _, mret deadline;
     Close := mret close |}.

(** ** A codec and a platform to run the package on

    Small implementations of the library interfaces, used to run the
    functions of the package on concrete inputs.  The codec reads ICMP
    messages without extension objects and IPv4 headers in network byte
    order, after [golang.org/x/net]; the platform keeps the sockets, the
    datagrams sent and waiting, and the standard error stream in a record. *)

Module Wire.

(** [net.IPv4(a, b, c, d)]: the 16-byte form of an IPv4 address. *)
Definition IPv4 (a b c d : byte) : net.IP :=
  replicate 10 x00 ++ [xff; xff; a; b; c; d].

Definition ParseHeader (b : list byte) : ipv4.Header + error :=
  match b with
  | b0 :: b1 :: b2 :: b3 :: b4 :: b5 :: b6 :: b7 :: b8 :: b9 :: b10 :: b11
      :: b12 :: b13 :: b14 :: b15 :: b16 :: b17 :: b18 :: b19 :: _ =>
      let hdrlen := Z.shiftl (Z.land (byte_Z b0) 15) 2 in
      if decide (Z.of_nat (length b) < hdrlen)%Z then
        inr (libError "extension header too short" None)
      else
        let fragOff := be16 b6 b7 in
        inl {| ipv4.Version := Z.shiftr (byte_Z b0) 4;
               ipv4.Len := hdrlen;
               ipv4.TOS := byte_Z b1;
               ipv4.TotalLen := be16 b2 b3;
               ipv4.ID := be16 b4 b5;
               ipv4.Flags := Z.shiftr (Z.land fragOff 57344) 13;
               ipv4.FragOff := Z.land fragOff 8191;
               ipv4.TTL := byte_Z b8;
               ipv4.Protocol := byte_Z b9;
               ipv4.Checksum := be16 b10 b11;
               ipv4.Src := IPv4 b12 b13 b14 b15;
               ipv4.Dst := IPv4 b16 b17 b18 b19;
               ipv4.Options := take (Z.to_nat (hdrlen - 20)) (drop 20 b) |}
  | _ => inr (libError "header too short" None)
  end.

(** The body of a message of type [t], from the bytes after the four of
    the envelope. *)
Definition parseBody (t : Z) (b : list byte) : icmp.MessageBody + error :=
  if decide (t = 11 ∨ t = 3)%Z then
    match b with
    | _ :: _ :: _ :: _ :: data =>
        inl (if decide (t = 11)%Z then icmp.TimeExceeded data else icmp.DstUnreach data)
    | _ => inr (libError "message too short" None)
    end
  else if decide (t = 0 ∨ t = 8)%Z then
    match b with
    | i1 :: i2 :: s1 :: s2 :: data => inl (icmp.Echo (be16 i1 i2) (be16 s1 s2) data)
    | _ => inr (libError "message too short" None)
    end
  else inl (icmp.RawBody b).

Definition ParseMessage (proto : Z) (b : list byte) : icmp.Message + error :=
  match b with
  | t :: c :: s1 :: s2 :: rest =>
      if decide (proto = 1)%Z then
        match parseBody (byte_Z t) rest with
        | inl body =>
            inl {| icmp.Type' := icmp.ipv4_ICMPType (byte_Z t);
                   icmp.Code := byte_Z c;
                   icmp.Checksum := be16 s1 s2;
                   icmp.Body := body |}
        | inr err => inr err
        end
      else if decide (proto = 58)%Z then
        inl {| icmp.Type' := icmp.ipv6_ICMPType (byte_Z t);
               icmp.Code := byte_Z c;
               icmp.Checksum := be16 s1 s2;
               icmp.Body := icmp.RawBody rest |}
      else inr (libError "invalid protocol" None)
  | _ => inr (libError "message too short" None)
  end.

(** The names [%v] prints: those of the assigned types, ["<nil>"] for the
    others. *)
Definition Type_String (t : icmp.Type_) : string :=
  match t with
  | icmp.ipv4_ICMPType 0 => "echo reply"
  | icmp.ipv4_ICMPType 3 => "destination unreachable"
  | icmp.ipv4_ICMPType 5 => "redirect"
  | icmp.ipv4_ICMPType 8 => "echo"
  | icmp.ipv4_ICMPType 11 => "time exceeded"
  | icmp.ipv4_ICMPType 12 => "parameter problem"
  | icmp.ipv6_ICMPType 128 => "echo request"
  | icmp.ipv6_ICMPType 129 => "echo reply"
  | _ => "<nil>"
  end%Z.

Definition codec : Codec :=
  {| icmp_ParseMessage := ParseMessage;
     ipv4_ParseHeader := ParseHeader;
     icmp_Type_String := Type_String |}.

(** A codec whose envelope parser answers [m] whatever it is given, in the
    manner of the mocks above. *)
Definition canned (m : icmp.Message + error) : Codec :=
  {| icmp_ParseMessage := λ _ _, m;
     ipv4_ParseHeader := ParseHeader;
     icmp_Type_String := Type_String |}.

End Wire.

Module Sim.

(** The world: the sockets that are open, the [IP_TTL] set on them, the
    datagrams sent, the ICMP messages waiting with their source, the lines
    on the standard error, the clock, and whether the next request for a
    raw connection is refused. *)
Record World : Type := {
  open : gset N;
  ttl : gmap N Z;
  sent : list Datagram;
  inbox : list (net.IP * list byte);
  stderr : list string;
  clock : Z;
  refuse_SyscallConn : bool
}.

Definition set_open (f : gset N -> gset N) (w : World) : World :=
  {| open := f (open w); ttl := ttl w; sent := sent w; inbox := inbox w;
     stderr := stderr w; clock := clock w;
     refuse_SyscallConn := refuse_SyscallConn w |}.

Definition set_ttl (f : gmap N Z -> gmap N Z) (w : World) : World :=
  {| open := open w; ttl := f (ttl w); sent := sent w; inbox := inbox w;
     stderr := stderr w; clock := clock w;
     refuse_SyscallConn := refuse_SyscallConn w |}.

Definition set_sent (f : list Datagram -> list Datagram) (w : World) : World :=
  {| open := open w; ttl := ttl w; sent := f (sent w); inbox := inbox w;
     stderr := stderr w; clock := clock w;
     refuse_SyscallConn := refuse_SyscallConn w |}.

Definition set_inbox (l : list (net.IP * list byte)) (w : World) : World :=
  {| open := open w; ttl := ttl w; sent := sent w; inbox := l;
     stderr := stderr w; clock := clock w;
     refuse_SyscallConn := refuse_SyscallConn w |}.

Definition set_stderr (f : list string -> list string) (w : World) : World :=
  {| open := open w; ttl := ttl w; sent := sent w; inbox := inbox w;
     stderr := f (stderr w); clock := clock w;
     refuse_SyscallConn := refuse_SyscallConn w |}.

Definition errClosed : error := libError "use of closed network connection" (Some false).
Definition errTimeout : error := libError "i/o timeout" (Some true).
Definition EINVAL : error := libError "invalid argument" (Some false).
Definition EBADF : error := libError "bad file descriptor" (Some false).
Definition ENOPROTOOPT : error := libError "protocol not available" (Some false).

(** The raw connection of socket [c]: [Control] runs the function on the
    descriptor and answers nil, or fails without running it when the
    socket is closed. *)
Definition rawConn (c : N) : SyscallConn World :=
  {| Control := λ f w,
       if decide (c ∈ open w) then (_ ← f (Z.of_N c); mret None) w
       else (Returns (Some errClosed), w) |}.

(** [setsockopt]: on an open socket, [IP_TTL] takes -1 and 1 to 255. *)
Definition SetsockoptInt (fd level opt value : Z) : M World (option error) := λ w,
  if decide (0 ≤ fd ∧ Z.to_N fd ∈ open w)%Z then
    if decide (level = 0 ∧ opt = 2)%Z then
      if decide (value = -1 ∨ 1 ≤ value ≤ 255)%Z then
        (Returns None, set_ttl (<[Z.to_N fd := value]>) w)
      else (Returns (Some EINVAL), w)
    else (Returns (Some ENOPROTOOPT), w)
  else (Returns (Some EBADF), w).

Definition ResolveUDPAddr (network address : string) : M World (net.UDPAddr + error) :=
  if decide (address = ":0") then
    mret (inl {| net.UDPAddr_IP := []; net.UDPAddr_Port := 0; net.UDPAddr_Zone := "" |})
  else mret (inr (libError ("address " +:+ address +:+ ": missing port in address") None)).

Definition ListenUDP (network : string) (laddr : net.UDPAddr) : M World (net.UDPConn + error) := λ w,
  let c := fresh (open w) in
  (Returns (inl c), set_open (λ s, {[c]} ∪ s) w).

Definition UDPConn_SyscallConn (c : net.UDPConn) : M World (SyscallConn World + error) := λ w,
  if refuse_SyscallConn w then (Returns (inr EINVAL), w)
  else (Returns (inl (rawConn c)), w).

Definition WriteToUDP (c : net.UDPConn) (b : list byte) (addr : net.UDPAddr)
    : M World (Z * option error) := λ w,
  if decide (c ∈ open w) then
    (Returns (Z.of_nat (length b), None),
     set_sent (λ l, l ++ [{| dst := addr; payload := b |}]) w)
  else (Returns (0%Z, Some errClosed), w).

Definition UDPConn_Close (c : net.UDPConn) : M World (option error) := λ w,
  if decide (c ∈ open w) then (Returns None, set_open (λ s, s ∖ {[c]}) w)
  else (Returns (Some errClosed), w).

Definition Fprintf_Stderr (s : string) : M World () := λ w,
  (Returns (), set_stderr (λ l, l ++ [s]) w).

(** The ICMP socket [c]: a read takes the first waiting message and copies
    what fits into the buffer; with none waiting the deadline expires. *)
Definition packetConn (c : N) : ICMPPacketConn World Z :=
  {| ReadFrom := λ b w,
       if decide (c ∈ open w) then
         match inbox w with
         | [] => (Returns (0%Z, net.nil_Addr, Some errTimeout, []), w)
         | (src, p) :: rest =>
             (Returns (Z.of_nat (length p `min` length b),
                       net.IPAddr_ptr {| net.IPAddr_IP := src; net.IPAddr_Zone := "" |},
                       None, take (length b) p),
              set_inbox rest w)
         end
       else (Returns (0%Z, net.nil_Addr, Some errClosed, []), w);
     SetReadDeadline := λ _ w,
       if decide (c ∈ open w) then (Returns None, w) else (Returns (Some errClosed), w);
     Close := UDPConn_Close c |}.

Definition ListenPacket (network address : string)
    : M World (ICMPPacketConn World Z + error) := λ w,
  let c := fresh (open w) in
  (Returns (inl (packetConn c)), set_open (λ s, {[c]} ∪ s) w).

#[global] Instance platform : Platform World Z :=
  {| time_Now := λ w, (Returns (clock w), w);
     Time_Add := Z.add;
     net_ResolveUDPAddr := ResolveUDPAddr;
     net_ListenUDP := ListenUDP;
     net_UDPConn_SyscallConn := UDPConn_SyscallConn;
     net_UDPConn_WriteToUDP := WriteToUDP;
     net_UDPConn_Close := UDPConn_Close;
     syscall_SetsockoptInt := SetsockoptInt;
     syscall_IPPROTO_IP := 0;
     syscall_IP_TTL := 2;
     fmt_Fprintf_Stderr := Fprintf_Stderr;
     icmp_ListenPacket := ListenPacket |}.

(** A world with nothing in it, and the same with [msgs] waiting on ICMP
    socket 0, which is open. *)
Definition empty : World :=
  {| open := ∅; ttl := ∅; sent := []; inbox := []; stderr := []; clock := 0;
     refuse_SyscallConn := false |}.

Definition listening (msgs : list (net.IP * list byte)) : World :=
  {| open := {[0%N]}; ttl := ∅; sent := []; inbox := msgs; stderr := []; clock := 0;
     refuse_SyscallConn := false |}.

(** The world after [NewUDPConn(":0")] in the empty one, and the connection
    it returns: socket 0 with its raw connection. *)
Definition bound : World :=
  {| open := {[0%N]}; ttl := ∅; sent := []; inbox := []; stderr := []; clock := 0;
     refuse_SyscallConn := false |}.

Definition sender : UDPConn World :=
  {| embedded_UDPConn := 0%N; syscallConn := rawConn 0 |}.

(** The listener on ICMP socket 0. *)
Definition listener : ICMPConn World Z := {| conn := packetConn 0 |}.

(** A world whose sockets do not give their raw connection. *)
Definition refusing : World :=
  {| open := ∅; ttl := ∅; sent := []; inbox := []; stderr := []; clock := 0;
     refuse_SyscallConn := true |}.

End Sim.

(** ** Sample messages

    The values of [icmp_test.go]: an embedded header of 20 bytes with TTL 64
    and protocol 1, from 192.0.2.1 to 8.8.8.8; an echo with identifier 1,
    sequence number 1 and the data ["Hello, world!"]. *)

Module Samples.

Definition ipHeader : list byte :=
  [x45; x00; x00; x14; x00; x00; x00; x00; x40; x01; x00; x00;
   xc0; x00; x02; x01; x08; x08; x08; x08].

Definition parsedHeader : ipv4.Header :=
  {| ipv4.Version := 4; ipv4.Len := 20; ipv4.TOS := 0; ipv4.TotalLen := 20;
     ipv4.ID := 0; ipv4.Flags := 0; ipv4.FragOff := 0; ipv4.TTL := 64;
     ipv4.Protocol := 1; ipv4.Checksum := 0;
     ipv4.Src := Wire.IPv4 xc0 x00 x02 x01;
     ipv4.Dst := Wire.IPv4 x08 x08 x08 x08;
     ipv4.Options := [] |}.

(** ["Hello, world!"] *)
Definition echoData : list byte :=
  [x48; x65; x6c; x6c; x6f; x2c; x20; x77; x6f; x72; x6c; x64; x21].

(** type, code, checksum, then the body *)
Definition timeExceeded : list byte :=
  [x0b; x00; x00; x00] ++ [x00; x00; x00; x00] ++ ipHeader.

(** a Time-Exceeded message whose embedded bytes stop after 8 *)
Definition timeExceededShort : list byte :=
  [x0b; x00; x00; x00] ++ [x00; x00; x00; x00] ++ take 8 ipHeader.

Definition echoReply : list byte :=
  [x00; x00; x00; x00] ++ [x00; x01; x00; x01] ++ echoData.

Definition echoRequest : list byte :=
  [x08; x00; x00; x00] ++ [x00; x01; x00; x01] ++ echoData.

Definition redirect : list byte :=
  [x05; x01; x00; x00] ++ [x0a; x00; x00; x01] ++ ipHeader.

Definition destinationUnreachable : list byte :=
  [x03; x03; x00; x00] ++ [x00; x00; x00; x00] ++ ipHeader.

(** a message tagged Time-Exceeded whose body is an echo *)
Definition timeExceededEchoBody : icmp.Message :=
  {| icmp.Type' := icmp.ipv4_ICMPType ipv4.ICMPTypeTimeExceeded;
     icmp.Code := 0; icmp.Checksum := 0;
     icmp.Body := icmp.Echo 1 1 echoData |}.

(** a message with an ICMPv6 type tag, echo request *)
Definition echoRequestV6 : icmp.Message :=
  {| icmp.Type' := icmp.ipv6_ICMPType 128;
     icmp.Code := 0; icmp.Checksum := 0;
     icmp.Body := icmp.RawBody echoData |}.

Definition peer : net.IPAddr :=
  {| net.IPAddr_IP := Wire.IPv4 xc0 x00 x02 x01; net.IPAddr_Zone := "" |}.

(** a datagram of 2000 bytes, more than the listener's buffer holds *)
Definition oversized : list byte := replicate 2000 x2a.

(** one second, as a [time.Duration] *)
Definition second : Z := 1000000000.

(** an error of a read that is not a timeout *)
Definition refused : error := libError "read: connection refused" (Some false).

Definition destination : net.UDPAddr :=
  {| net.UDPAddr_IP := Wire.IPv4 x08 x08 x08 x08; net.UDPAddr_Port := 33434;
     net.UDPAddr_Zone := "" |}.

End Samples.

(** ** More sample values *)

Module Cases.

(** the Time-Exceeded sample with code 1, fragment reassembly time exceeded,
    and a checksum that is not zero *)
Definition timeExceededCode1 : list byte :=
  [x0b; x01; xf4; xfe] ++ [x00; x00; x00; x00] ++ Samples.ipHeader.

(** three bytes, one short of an ICMP envelope *)
Definition truncated : list byte := [x0b; x00; x00].

(** a message waiting on ICMP socket 0, which is closed *)
Definition closedWithMail : Sim.World :=
  Sim.set_open (λ _, ∅) (Sim.listening [(net.IPAddr_IP Samples.peer, Samples.echoReply)]).

(** a connection whose read stores 3 bytes and answers the count 5 *)
Definition shortStore : list byte := [x0b; x00; xf4].

Definition shortReader : ICMPPacketConn Sim.World Z :=
  {| ReadFrom := λ _, mret (5%Z, net.IPAddr_ptr Samples.peer, None, shortStore);
     SetReadDeadline := λ _, mret None;
     Close := mret None |}.

End Cases.

(** * Properties *)

(** ** The decoder *)

(** Closes one conjunct of a statement about the decoder once the cases of
    its code are laid out: the equations of the case at hand decide it. *)
Ltac decoder_case :=
  repeat first
    [ progress intros
    | progress simplify_eq
    | match goal with
      | H : is_Some None |- _ => destruct H as [? [=]]
      | H : ∃ _, _ |- _ => destruct H
      | H : _ ∧ _ |- _ => destruct H
      | |- _ ↔ _ => split
      | |- _ ∧ _ => split
      | |- is_Some (Some _) => by eexists
      end
    | done
    | by eauto 6
    | congruence
    | progress unfold ipv4.ICMPTypeTimeExceeded, ipv4.ICMPTypeEchoReply in * ].

Section DecoderFacts.
Context `{C : Codec}.

(** C1.  Whatever the bytes, the result of [ParseICMPMessage] carries a
    header exactly when the envelope parsed, its type is Time-Exceeded, its
    body is the Time-Exceeded variant and the bytes embedded in it parse as
    an IPv4 header; that is, exactly when the result is tagged Time-Exceeded
    and has no error.  A result tagged Echo-Reply has no header, and an
    Echo-Reply message gives neither header nor error.  A message of any
    other IPv4 type gives an error, and a result with neither header nor
    error comes from an Echo-Reply message only. *)
Theorem ParseICMPMessage_header_invariant (msg : list byte) :
  let '(typ, header, err) := ParseICMPMessage msg in
  (∀ h, header = Some h ↔
        ∃ m data,
          icmp_ParseMessage 1 msg = inl m
          ∧ icmp.Type' m = icmp.ipv4_ICMPType ipv4.ICMPTypeTimeExceeded
          ∧ icmp.Body m = icmp.TimeExceeded data
          ∧ ipv4_ParseHeader data = inl h)
  ∧ (is_Some header ↔ typ = ipv4.ICMPTypeTimeExceeded ∧ err = None)
  ∧ (typ = ipv4.ICMPTypeEchoReply → header = None)
  ∧ (∀ m, icmp_ParseMessage 1 msg = inl m →
          icmp.Type' m = icmp.ipv4_ICMPType ipv4.ICMPTypeEchoReply →
          header = None ∧ err = None)
  ∧ (∀ m t, icmp_ParseMessage 1 msg = inl m →
            icmp.Type' m = icmp.ipv4_ICMPType t →
            t ≠ ipv4.ICMPTypeTimeExceeded → t ≠ ipv4.ICMPTypeEchoReply →
            header = None ∧ is_Some err)
  ∧ (header = None → err = None →
     ∃ m, icmp_ParseMessage 1 msg = inl m
          ∧ icmp.Type' m = icmp.ipv4_ICMPType ipv4.ICMPTypeEchoReply).
Proof.
  unfold ParseICMPMessage, parseTimeExceededMessage.
  destruct (icmp_ParseMessage 1 msg) as [m|e] eqn:E;
    [destruct (icmp.Type' m) as [t|t] eqn:Et;
     [destruct (Z.eqb_spec t ipv4.ICMPTypeTimeExceeded) as [->|Hte];
      [destruct (icmp.Body m) as [data| | | |] eqn:Eb;
       [destruct (ipv4_ParseHeader data) as [h'|e'] eqn:Eh|..]
      |destruct (Z.eqb_spec t ipv4.ICMPTypeEchoReply) as [->|Her]]|]|].
  all: split_and!; decoder_case.
Qed.

(** C3.  When the envelope parses with the Time-Exceeded type: if the body
    is the Time-Exceeded variant and the bytes embedded in it parse as an
    IPv4 header, [ParseICMPMessage] returns the Time-Exceeded tag, that
    header (what the header parser read from exactly the embedded bytes)
    and no error; if the body is another variant it returns the body-type
    error and no header; if the embedded bytes do not parse it returns an
    error wrapping the header parser's and no header. *)
Theorem ParseICMPMessage_TimeExceeded (msg : list byte) (m : icmp.Message) :
  icmp_ParseMessage 1 msg = inl m →
  icmp.Type' m = icmp.ipv4_ICMPType ipv4.ICMPTypeTimeExceeded →
  (∀ data h,
     icmp.Body m = icmp.TimeExceeded data → ipv4_ParseHeader data = inl h →
     ParseICMPMessage msg = (ipv4.ICMPTypeTimeExceeded, Some h, None))
  ∧ ((∀ data, icmp.Body m ≠ icmp.TimeExceeded data) →
     ParseICMPMessage msg
     = (ipv4.ICMPTypeTimeExceeded, None,
        Some (fmt_Errorf "invalid TimeExceeded message body")))
  ∧ (∀ data err,
       icmp.Body m = icmp.TimeExceeded data → ipv4_ParseHeader data = inr err →
       ParseICMPMessage msg
       = (ipv4.ICMPTypeTimeExceeded, None,
          Some (fmt_Errorf_w "failed to parse IP header: " err))
       ∧ Unwrap (fmt_Errorf_w "failed to parse IP header: " err) = Some err).
Proof.
  intros E Et. unfold ParseICMPMessage, parseTimeExceededMessage.
  rewrite E, Et. simpl. split_and!.
  - by intros data h -> ->.
  - intros Hne. destruct (icmp.Body m) as [data| | | |]; [by destruct (Hne data)|done..].
  - by intros data err -> ->.
Qed.

(** C4.  When the envelope parses with an IPv4 type that is neither
    Time-Exceeded nor Echo-Reply, [ParseICMPMessage] returns that type, no
    header, and an error whose text is ["unexpected ICMP message type: "]
    followed by the type as [%v] prints it. *)
Theorem ParseICMPMessage_unexpected_type (msg : list byte) (m : icmp.Message)
    (t : ipv4.ICMPType) :
  icmp_ParseMessage 1 msg = inl m →
  icmp.Type' m = icmp.ipv4_ICMPType t →
  t ≠ ipv4.ICMPTypeTimeExceeded →
  t ≠ ipv4.ICMPTypeEchoReply →
  ∃ err,
    ParseICMPMessage msg = (t, None, Some err)
    ∧ Error err
      = "unexpected ICMP message type: " +:+ icmp_Type_String (icmp.ipv4_ICMPType t).
Proof.
  intros E Et Hte Her. unfold ParseICMPMessage. rewrite E, Et.
  destruct (Z.eqb_spec t ipv4.ICMPTypeTimeExceeded); [done|].
  destruct (Z.eqb_spec t ipv4.ICMPTypeEchoReply); [done|].
  by eexists.
Qed.

(** C6.  When the envelope parses with the Echo-Reply type,
    [ParseICMPMessage] returns the Echo-Reply tag, no header and no error,
    whatever the body of the message. *)
Theorem ParseICMPMessage_EchoReply (msg : list byte) (m : icmp.Message) :
  icmp_ParseMessage 1 msg = inl m →
  icmp.Type' m = icmp.ipv4_ICMPType ipv4.ICMPTypeEchoReply →
  ParseICMPMessage msg = (ipv4.ICMPTypeEchoReply, None, None).
Proof. intros E Et. unfold ParseICMPMessage. by rewrite E, Et. Qed.

(** C9.  When the envelope parses but its type tag is not an
    [ipv4.ICMPType], [ParseICMPMessage] returns the zero tag, no header and
    an error: the tag returned is 0 whatever the tag of the message. *)
Theorem ParseICMPMessage_not_IPv4_type (msg : list byte) (m : icmp.Message) :
  icmp_ParseMessage 1 msg = inl m →
  (∀ t, icmp.Type' m ≠ icmp.ipv4_ICMPType t) →
  ∃ err,
    ParseICMPMessage msg = (0%Z, None, Some err)
    ∧ Error err = "unexpected ICMP message type: " +:+ icmp_Type_String (icmp.Type' m).
Proof.
  intros E Hne. unfold ParseICMPMessage. rewrite E.
  destruct (icmp.Type' m) as [t|t] eqn:Et; [by destruct (Hne t)|by eexists].
Qed.

End DecoderFacts.

(** ** Running computations *)

Lemma run_bind {W A B} (m : M W A) (k : A → M W B) (w : W) :
  (m ≫= k) w
  = match m w with
    | (Returns a, w') => k a w'
    | (Panics reason, w') => (Panics reason, w')
    end.
Proof. reflexivity. Qed.

Lemma run_bind_returns {W A B} (m : M W A) (k : A → M W B) (w w' : W) (a : A) :
  m w = (Returns a, w') → (m ≫= k) w = k a w'.
Proof. intros E. by rewrite run_bind, E. Qed.

Lemma run_ret {W A} (a : A) (w : W) : (mret a : M W A) w = (Returns a, w).
Proof. reflexivity. Qed.

(** Splits the run of a sequence of calls at its first call. *)
Ltac run_call E :=
  rewrite run_bind;
  match goal with
  | |- context [match ?m ?w with _ => _ end] =>
      destruct (m w) as [[?|?] ?] eqn:E
  | H : context [match ?m ?w with _ => _ end] |- _ =>
      destruct (m w) as [[?|?] ?] eqn:E
  end.

Arguments make_bytes : simpl never.

Lemma make_bytes_length (n : Z) : length (make_bytes n) = Z.to_nat n.
Proof. unfold make_bytes. apply length_replicate. Qed.

Lemma overwrite_length (b stored : list byte) :
  length (overwrite b stored) = length b.
Proof. unfold overwrite. rewrite length_app, length_take, length_drop. lia. Qed.

(** A datagram that overfills the buffer leaves its first bytes in it. *)
Lemma overwrite_take (b p : list byte) :
  take (length p `min` length b) (overwrite b (take (length b) p))
  = take (length b) p.
Proof.
  unfold overwrite. rewrite take_take, Nat.min_id.
  rewrite take_app_le by (rewrite length_take; lia).
  rewrite take_take.
  destruct (decide (length p ≤ length b)) as [Hle|Hgt].
  - rewrite !take_ge by lia. done.
  - f_equal. lia.
Qed.

Lemma slice_to_returns {W} (b data : list byte) (n : Z) (w w' : W) :
  slice_to b n w = (Returns data, w') →
  w' = w ∧ (0 ≤ n ≤ Z.of_nat (length b))%Z ∧ data = take (Z.to_nat n) b.
Proof.
  unfold slice_to. destruct (decide _) as [Hn|Hn]; [|discriminate].
  intros [= <- <-]. done.
Qed.

(** The two errors a failed read can give differ, in value and in text. *)
Lemma read_timeout_distinct (cause : error) :
  fmt_Errorf "read timeout" ≠ fmt_Errorf_w "failed to read ICMP message: " cause
  ∧ Error (fmt_Errorf "read timeout")
    ≠ Error (fmt_Errorf_w "failed to read ICMP message: " cause)
  ∧ Unwrap (fmt_Errorf "read timeout") = None
  ∧ Unwrap (fmt_Errorf_w "failed to read ICMP message: " cause) = Some cause.
Proof. split_and!; done. Qed.

(** ** The response listener *)

Section ListenerFacts.
Context {W T : Type} `{P : Platform W T}.

(** C5.  When the deadline is armed and the read fails with an error that is
    a [net.Error] whose [Timeout()] is true, [ReadWithTimeout] returns the
    error [read timeout]; when the read fails with any other error, it
    returns an error that wraps it.  The first differs from the second,
    whatever the cause of the second: in value, in text, and in that it
    wraps nothing. *)
Theorem ReadWithTimeout_timeout_distinguished (c : ICMPConn W T) (timeout : Z)
    (w w0 w1 w2 : W) (now : T) (n : Z) (peer : net.Addr) (err : error)
    (stored : list byte) :
  time_Now w = (Returns now, w0) →
  SetReadDeadline (conn c) (Time_Add now timeout) w0 = (Returns None, w1) →
  ReadFrom (conn c) (make_bytes MaxPacketSize) w1
  = (Returns (n, peer, Some err, stored), w2) →
  (net_Error_Timeout err = Some true →
   ReadWithTimeout c timeout w
   = (Returns ([], [], Some (fmt_Errorf "read timeout")), w2))
  ∧ (net_Error_Timeout err ≠ Some true →
     ReadWithTimeout c timeout w
     = (Returns ([], [], Some (fmt_Errorf_w "failed to read ICMP message: " err)), w2)
     ∧ Unwrap (fmt_Errorf_w "failed to read ICMP message: " err) = Some err)
  ∧ (∀ cause,
       fmt_Errorf "read timeout" ≠ fmt_Errorf_w "failed to read ICMP message: " cause
       ∧ Error (fmt_Errorf "read timeout")
         ≠ Error (fmt_Errorf_w "failed to read ICMP message: " cause)
       ∧ Unwrap (fmt_Errorf "read timeout") = None).
Proof.
  intros Enow Edl Erd. unfold ReadWithTimeout.
  rewrite (run_bind_returns _ _ _ _ _ Enow), (run_bind_returns _ _ _ _ _ Edl).
  rewrite (run_bind_returns _ _ _ _ _ Erd). split_and!.
  - by intros ->.
  - intros Hnt. split; [|done].
    destruct (net_Error_Timeout err) as [[|]|]; done.
  - intros cause. destruct (read_timeout_distinct cause) as (? & ? & ? & _). done.
Qed.

(** C8.  A call of [ReadWithTimeout] that returns without error returns the
    first [n] cells of its buffer of [MaxPacketSize] bytes as the read left
    them, [n] being the count the read answered: [n] bytes, at most 1500.
    And when the read delivers a datagram as a datagram socket does (it
    copies what fits into the buffer and answers how much it copied), the
    call succeeds with the datagram cut at 1500 bytes, whatever its
    length. *)
Theorem ReadWithTimeout_received (c : ICMPConn W T) (timeout : Z) (w : W) :
  MaxPacketSize = 1500%Z
  ∧ (∀ ip data w',
     ReadWithTimeout c timeout w = (Returns (ip, data, None), w') →
     ∃ now w0 w1 n peer stored,
       time_Now w = (Returns now, w0)
       ∧ SetReadDeadline (conn c) (Time_Add now timeout) w0 = (Returns None, w1)
       ∧ ReadFrom (conn c) (make_bytes MaxPacketSize) w1
         = (Returns (n, net.IPAddr_ptr peer, None, stored), w')
       ∧ ip = net.IPAddr_IP peer
       ∧ data = take (Z.to_nat n) (overwrite (make_bytes MaxPacketSize) stored)
       ∧ Z.of_nat (length data) = n
       ∧ (Z.of_nat (length data) ≤ MaxPacketSize)%Z)
  ∧ (∀ now w0 w1 w2 peer p,
       time_Now w = (Returns now, w0) →
       SetReadDeadline (conn c) (Time_Add now timeout) w0 = (Returns None, w1) →
       ReadFrom (conn c) (make_bytes MaxPacketSize) w1
       = (Returns (Z.of_nat (length p `min` length (make_bytes MaxPacketSize)),
                   net.IPAddr_ptr peer, None,
                   take (length (make_bytes MaxPacketSize)) p), w2) →
       ReadWithTimeout c timeout w
       = (Returns (net.IPAddr_IP peer, take (Z.to_nat MaxPacketSize) p, None), w2)).
Proof.
  split; [done|]. split.
  - intros ip data w'. unfold ReadWithTimeout.
    rewrite run_bind. destruct (time_Now w) as [[now|?] w0] eqn:Enow; [|discriminate].
    rewrite run_bind.
    destruct (SetReadDeadline (conn c) (Time_Add now timeout) w0)
      as [[[e|]|?] w1] eqn:Edl; [discriminate| |discriminate].
    rewrite run_bind.
    destruct (ReadFrom (conn c) (make_bytes MaxPacketSize) w1)
      as [[[[[n peer] [e|]] stored]|?] w2] eqn:Erd; [| |discriminate].
    { destruct (net_Error_Timeout e) as [[|]|]; discriminate. }
    rewrite run_bind.
    destruct peer as [|peer|peer]; [discriminate| |discriminate].
    cbn [assert_IPAddr_IP]. rewrite run_ret, run_bind.
    destruct (slice_to _ n w2) as [[data'|?] w3] eqn:Eslice; [|discriminate].
    rewrite run_ret. intros [= <- <- <-].
    apply slice_to_returns in Eslice as (-> & Hn & ->).
    rewrite overwrite_length, make_bytes_length in Hn.
    exists now, w0, w1, n, peer, stored.
    assert (length (take (Z.to_nat n) (overwrite (make_bytes MaxPacketSize) stored))
            = Z.to_nat n) as Hlen.
    { rewrite length_take, overwrite_length, make_bytes_length. lia. }
    split_and!; try done.
    + rewrite Hlen. lia.
    + rewrite Hlen. unfold MaxPacketSize in *. lia.
  - intros now w0 w1 w2 peer p Enow Edl Erd. unfold ReadWithTimeout.
    rewrite (run_bind_returns _ _ _ _ _ Enow), (run_bind_returns _ _ _ _ _ Edl).
    rewrite (run_bind_returns _ _ _ _ _ Erd). cbn beta iota.
    rewrite run_bind. cbn [assert_IPAddr_IP]. rewrite run_ret, run_bind.
    unfold slice_to. rewrite overwrite_length.
    rewrite decide_True by lia.
    rewrite run_ret. rewrite Nat2Z.id, overwrite_take, make_bytes_length.
    done.
Qed.

End ListenerFacts.

(** ** The probe sender *)

Section SenderFacts.
Context {W T : Type} `{P : Platform W T}.

(** C2, as the code has it.  When [Control] runs the function it is given on
    the descriptor and answers nil, as the raw connection of an open socket
    does, and the [setsockopt] call inside fails, [SetTTL] writes a line to
    the standard error and returns nil: the failure does not reach the
    caller. *)
Theorem SetTTL_swallows_setsockopt_failure (c : UDPConn W) (ttl : Z)
    (fd : uintptr) (errno : error) (w w1 w2 : W) :
  (∀ f, Control (syscallConn c) f w = (f fd ≫= λ _, mret None) w) →
  syscall_SetsockoptInt (int fd) syscall_IPPROTO_IP syscall_IP_TTL ttl w
  = (Returns (Some errno), w1) →
  fmt_Fprintf_Stderr ("failed to set TTL: " +:+ Error errno +:+ LF) w1
  = (Returns (), w2) →
  SetTTL c ttl w = (Returns None, w2).
Proof.
  intros Hcontrol Esys Elog. unfold SetTTL. rewrite Hcontrol.
  unfold SetTTL_closure.
  rewrite run_bind, run_bind, Esys, Elog. done.
Qed.

(** What the network has carried, and what is asked of the library about it:
    a write that succeeds puts its datagram on the network; setting a socket
    option and printing to the standard error put nothing there. *)
Variable wire : W → list Datagram.
Hypothesis WriteToUDP_transmits :
  ∀ conn b addr w n w',
    net_UDPConn_WriteToUDP conn b addr w = (Returns (n, None), w') →
    wire w' = wire w ++ [{| dst := addr; payload := b |}].
Hypothesis SetsockoptInt_silent :
  ∀ fd level opt value w r w',
    syscall_SetsockoptInt fd level opt value w = (r, w') → wire w' = wire w.
Hypothesis Fprintf_Stderr_silent :
  ∀ s w r w', fmt_Fprintf_Stderr s w = (r, w') → wire w' = wire w.

(** The function [SetTTL] gives to [Control] sends nothing. *)
Lemma SetTTL_closure_silent (ttl : Z) (fd : uintptr) (v v' : W) (r : Outcome ()) :
  SetTTL_closure ttl fd v = (r, v') → wire v' = wire v.
Proof.
  unfold SetTTL_closure. rewrite run_bind.
  destruct (syscall_SetsockoptInt (int fd) syscall_IPPROTO_IP syscall_IP_TTL ttl v)
    as [[[e|]|?] v1] eqn:Esys; apply SetsockoptInt_silent in Esys.
  - intros Elog%Fprintf_Stderr_silent. congruence.
  - intros [= _ <-]. done.
  - intros [= _ <-]. done.
Qed.

(** C7.  Whatever the TTL (so for 1 to 255), [SetTTL] puts nothing on the
    network, and the [SendEmptyPacket] after it asks the transport for one
    write, of no bytes, to the address it was given.  When that send returns
    nil, the two calls together have put one datagram on the network: to that
    address, and empty. *)
Theorem SetTTL_then_SendEmptyPacket (c : UDPConn W) (ttl : Z)
    (addr : net.UDPAddr) (r : Outcome (option error)) (w w1 : W) :
  Control_silent wire (syscallConn c) →
  SetTTL c ttl w = (r, w1) →
  wire w1 = wire w
  ∧ SendEmptyPacket c addr w1
    = match net_UDPConn_WriteToUDP (embedded_UDPConn c) [] addr w1 with
      | (Returns (_, Some err), w2) =>
          (Returns (Some (fmt_Errorf_w "failed to send UDP packet: " err)), w2)
      | (Returns (_, None), w2) => (Returns None, w2)
      | (Panics reason, w2) => (Panics reason, w2)
      end
  ∧ (∀ w2, SendEmptyPacket c addr w1 = (Returns None, w2) →
           wire w2 = wire w ++ [{| dst := addr; payload := [] |}]).
Proof.
  intros Hcontrol Ettl.
  assert (wire w1 = wire w) as Hsilent.
  { unfold SetTTL in Ettl. eapply Hcontrol; [|exact Ettl].
    intros fd v r' v'. apply SetTTL_closure_silent. }
  split_and!.
  - exact Hsilent.
  - unfold SendEmptyPacket. rewrite run_bind.
    by destruct (net_UDPConn_WriteToUDP (embedded_UDPConn c) [] addr w1)
      as [[[n [e|]]|?] w2].
  - intros w2. unfold SendEmptyPacket. rewrite run_bind.
    destruct (net_UDPConn_WriteToUDP (embedded_UDPConn c) [] addr w1)
      as [[[n [e|]]|?] w2'] eqn:Ewrite; try discriminate.
    intros [= <-]. rewrite <- Hsilent. by eapply WriteToUDP_transmits.
Qed.

(** The sockets that are open, and what is asked of the library about them:
    a bind opens a socket that was not open; asking for the raw connection
    opens and closes none; [Close] on a socket releases it. *)
Variable open : W → gset net.UDPConn.
Hypothesis ListenUDP_opens :
  ∀ network laddr w conn w',
    net_ListenUDP network laddr w = (Returns (inl conn), w') →
    (conn ∉ open w) ∧ open w' = {[conn]} ∪ open w.
Hypothesis SyscallConn_keeps :
  ∀ conn w r w', net_UDPConn_SyscallConn conn w = (r, w') → open w' = open w.
Hypothesis Close_releases :
  ∀ conn w r w',
    net_UDPConn_Close conn w = (Returns r, w') → open w' = open w ∖ {[conn]}.

(** C10.  When the address resolves and the socket is bound but its raw
    connection is refused, [NewUDPConn] calls [Close] on the socket it bound,
    then returns no connection and the error wrapping the refusal: the
    world it leaves is the one after that [Close], in which the socket is
    not open and the open sockets are those from before the bind. *)
Theorem NewUDPConn_closes_on_SyscallConn_failure (localAddr : string)
    (addr : net.UDPAddr) (conn : net.UDPConn) (err : error)
    (cerr : option error) (w w1 w2 w3 w4 : W) :
  net_ResolveUDPAddr "udp4" localAddr w = (Returns (inl addr), w1) →
  net_ListenUDP "udp4" addr w1 = (Returns (inl conn), w2) →
  net_UDPConn_SyscallConn conn w2 = (Returns (inr err), w3) →
  net_UDPConn_Close conn w3 = (Returns cerr, w4) →
  NewUDPConn localAddr w
  = (Returns (None, Some (fmt_Errorf_w "failed to get syscall conn: " err)), w4)
  ∧ conn ∈ open w2
  ∧ (conn ∉ open w4)
  ∧ open w4 = open w1.
Proof.
  intros Eresolve Elisten Eraw Eclose.
  apply ListenUDP_opens in Elisten as Hopen. destruct Hopen as [Hfresh Hopen2].
  apply SyscallConn_keeps in Eraw as Hopen3.
  apply Close_releases in Eclose as Hopen4.
  split_and!.
  - unfold NewUDPConn.
    rewrite (run_bind_returns _ _ _ _ _ Eresolve).
    rewrite (run_bind_returns _ _ _ _ _ Elisten).
    rewrite (run_bind_returns _ _ _ _ _ Eraw).
    rewrite (run_bind_returns _ _ _ _ _ Eclose). done.
  - rewrite Hopen2. apply elem_of_union_l, elem_of_singleton_2. done.
  - rewrite Hopen4. intros [_ Hnot]%elem_of_difference.
    by apply Hnot, elem_of_singleton_2.
  - rewrite Hopen4, Hopen3, Hopen2. apply set_eq. intros x.
    rewrite elem_of_difference, elem_of_union, elem_of_singleton.
    split; [by intros [[->|?] ?]|].
    intros Hx. split; [by right|]. by intros ->.
Qed.

End SenderFacts.

(** ** The library interface is satisfiable: the laws on [Sim] *)

Lemma Sim_WriteToUDP_transmits conn b addr w n w' :
  Sim.WriteToUDP conn b addr w = (Returns (n, None), w') →
  Sim.sent w' = Sim.sent w ++ [{| dst := addr; payload := b |}].
Proof.
  unfold Sim.WriteToUDP. destruct (decide _); [|discriminate]. by intros [= <- <-].
Qed.

Lemma Sim_SetsockoptInt_silent fd level opt value w r w' :
  Sim.SetsockoptInt fd level opt value w = (r, w') → Sim.sent w' = Sim.sent w.
Proof.
  unfold Sim.SetsockoptInt. repeat destruct (decide _); by intros [= _ <-].
Qed.

Lemma Sim_Fprintf_Stderr_silent s w r w' :
  Sim.Fprintf_Stderr s w = (r, w') → Sim.sent w' = Sim.sent w.
Proof. by intros [= _ <-]. Qed.

Lemma Sim_rawConn_silent (c : N) :
  Control_silent Sim.sent (Sim.rawConn c).
Proof.
  intros f w r w' Hf. cbn [Control Sim.rawConn].
  destruct (decide (c ∈ Sim.open w)); [|by intros [= _ <-]].
  rewrite run_bind. destruct (f (Z.of_N c) w) as [[[]|?] v] eqn:Ef.
  - rewrite run_ret. intros [= _ <-]. by eapply Hf.
  - intros [= _ <-]. by eapply Hf.
Qed.

Lemma Sim_ListenUDP_opens network laddr w conn w' :
  Sim.ListenUDP network laddr w = (Returns (inl conn), w') →
  (conn ∉ Sim.open w) ∧ Sim.open w' = {[conn]} ∪ Sim.open w.
Proof. intros [= <- <-]. split; [apply is_fresh|done]. Qed.

Lemma Sim_SyscallConn_keeps conn w r w' :
  Sim.UDPConn_SyscallConn conn w = (r, w') → Sim.open w' = Sim.open w.
Proof.
  unfold Sim.UDPConn_SyscallConn. by destruct (Sim.refuse_SyscallConn w); intros [= <- <-].
Qed.

Lemma Sim_Close_releases conn w r w' :
  Sim.UDPConn_Close conn w = (Returns r, w') → Sim.open w' = Sim.open w ∖ {[conn]}.
Proof.
  unfold Sim.UDPConn_Close. destruct (decide _) as [Hin|Hout]; intros [= <- <-]; [done|].
  apply set_eq. intros x. rewrite elem_of_difference, elem_of_singleton.
  split; [|by intros [? _]]. intros Hx. split; [done|]. by intros ->.
Qed.

(** The decoder on the sample messages. *)

Lemma ParseICMPMessage_TimeExceeded_witness :
  @ParseICMPMessage Wire.codec Samples.timeExceeded
  = (11%Z, Some Samples.parsedHeader, None)
  ∧ @ParseICMPMessage (Wire.canned (inl Samples.timeExceededEchoBody)) []
    = (11%Z, None, Some (errorString "invalid TimeExceeded message body"))
  ∧ @ParseICMPMessage Wire.codec Samples.timeExceededShort
    = (11%Z, None,
       Some (wrapError "failed to parse IP header: header too short"
               (libError "header too short" None))).
Proof.
  split_and!.
  - eapply (ParseICMPMessage_TimeExceeded (C:=Wire.codec) Samples.timeExceeded);
      reflexivity.
  - eapply (ParseICMPMessage_TimeExceeded
              (C:=Wire.canned (inl Samples.timeExceededEchoBody)) []);
      [reflexivity | reflexivity | discriminate].
  - destruct (ParseICMPMessage_TimeExceeded (C:=Wire.codec)
                Samples.timeExceededShort _ eq_refl eq_refl) as (_ & _ & Hmalformed).
    exact (proj1 (Hmalformed _ _ eq_refl eq_refl)).
Defined.

Lemma ParseICMPMessage_unexpected_type_witness :
  (∃ err, @ParseICMPMessage Wire.codec Samples.echoRequest = (8%Z, None, Some err)
          ∧ Error err = "unexpected ICMP message type: echo")
  ∧ (∃ err, @ParseICMPMessage Wire.codec Samples.redirect = (5%Z, None, Some err)
            ∧ Error err = "unexpected ICMP message type: redirect")
  ∧ (∃ err, @ParseICMPMessage Wire.codec Samples.destinationUnreachable
            = (3%Z, None, Some err)
            ∧ Error err = "unexpected ICMP message type: destination unreachable").
Proof.
  split_and!.
  - eapply (ParseICMPMessage_unexpected_type (C:=Wire.codec) Samples.echoRequest);
      [reflexivity | reflexivity | discriminate | discriminate].
  - eapply (ParseICMPMessage_unexpected_type (C:=Wire.codec) Samples.redirect);
      [reflexivity | reflexivity | discriminate | discriminate].
  - eapply (ParseICMPMessage_unexpected_type (C:=Wire.codec)
              Samples.destinationUnreachable);
      [reflexivity | reflexivity | discriminate | discriminate].
Defined.

Lemma ParseICMPMessage_EchoReply_witness :
  @ParseICMPMessage Wire.codec Samples.echoReply = (0%Z, None, None).
Proof.
  eapply (ParseICMPMessage_EchoReply (C:=Wire.codec) Samples.echoReply); reflexivity.
Defined.

Lemma ParseICMPMessage_not_IPv4_type_witness :
  ∃ err,
    @ParseICMPMessage (Wire.canned (inl Samples.echoRequestV6)) Samples.echoRequest
    = (0%Z, None, Some err)
    ∧ Error err = "unexpected ICMP message type: echo request".
Proof.
  apply (ParseICMPMessage_not_IPv4_type
           (C:=Wire.canned (inl Samples.echoRequestV6))
           Samples.echoRequest Samples.echoRequestV6);
    [reflexivity | discriminate].
Defined.

(** The sender and the listener on the platform [Sim]. *)

Lemma SetTTL_swallows_setsockopt_failure_witness :
  Sim.SetsockoptInt 0 0 2 256 Sim.bound = (Returns (Some Sim.EINVAL), Sim.bound)
  ∧ SetTTL Sim.sender 256 Sim.bound
    = (Returns None,
       Sim.set_stderr (λ l, l ++ ["failed to set TTL: invalid argument" +:+ LF]) Sim.bound).
Proof.
  split; [reflexivity|].
  apply (SetTTL_swallows_setsockopt_failure Sim.sender 256 0%Z Sim.EINVAL
           Sim.bound Sim.bound);
    [intros f; reflexivity | reflexivity | reflexivity].
Defined.

Lemma SetTTL_then_SendEmptyPacket_witness :
  let w1 := Sim.set_ttl (<[0%N := 64%Z]>) Sim.bound in
  let w2 := Sim.set_sent (λ l, l ++ [{| dst := Samples.destination; payload := [] |}]) w1 in
  SetTTL Sim.sender 64 Sim.bound = (Returns None, w1)
  ∧ SendEmptyPacket Sim.sender Samples.destination w1 = (Returns None, w2)
  ∧ Sim.sent w1 = []
  ∧ Sim.sent w2 = [{| dst := Samples.destination; payload := [] |}].
Proof.
  intros w1 w2.
  destruct (SetTTL_then_SendEmptyPacket (P:=Sim.platform) Sim.sent
              Sim_WriteToUDP_transmits Sim_SetsockoptInt_silent
              Sim_Fprintf_Stderr_silent
              Sim.sender 64 Samples.destination (Returns None) Sim.bound w1
              (Sim_rawConn_silent 0) eq_refl)
    as (Hsilent & _ & Hsent).
  split_and!; [reflexivity | reflexivity | exact Hsilent | exact (Hsent w2 eq_refl)].
Defined.

Lemma NewUDPConn_closes_on_SyscallConn_failure_witness :
  NewUDPConn ":0" Sim.refusing
  = (Returns (None,
              Some (wrapError "failed to get syscall conn: invalid argument" Sim.EINVAL)),
     Sim.set_open (λ s, s ∖ {[0%N]}) (Sim.set_open (λ s, {[0%N]} ∪ s) Sim.refusing))
  ∧ Sim.open (Sim.set_open (λ s, s ∖ {[0%N]}) (Sim.set_open (λ s, {[0%N]} ∪ s) Sim.refusing))
    = Sim.open Sim.refusing.
Proof.
  destruct (NewUDPConn_closes_on_SyscallConn_failure (P:=Sim.platform) Sim.open
              Sim_ListenUDP_opens Sim_SyscallConn_keeps Sim_Close_releases
              ":0"
              {| net.UDPAddr_IP := []; net.UDPAddr_Port := 0; net.UDPAddr_Zone := "" |}
              0%N Sim.EINVAL None
              Sim.refusing Sim.refusing
              (Sim.set_open (λ s, {[0%N]} ∪ s) Sim.refusing)
              (Sim.set_open (λ s, {[0%N]} ∪ s) Sim.refusing)
              (Sim.set_open (λ s, s ∖ {[0%N]}) (Sim.set_open (λ s, {[0%N]} ∪ s) Sim.refusing))
              eq_refl eq_refl eq_refl eq_refl)
    as (Hrun & _ & _ & Hopen).
  split; [exact Hrun | exact Hopen].
Defined.

Lemma ReadWithTimeout_timeout_distinguished_witness :
  ReadWithTimeout Sim.listener Samples.second (Sim.listening [])
  = (Returns ([], [], Some (errorString "read timeout")), Sim.listening [])
  ∧ ReadWithTimeout
      {| conn := MockICMPConn (0%Z, net.IPAddr_ptr Samples.peer, Some Samples.refused)
                   None None |}
      Samples.second Sim.empty
    = (Returns ([], [],
                Some (wrapError "failed to read ICMP message: read: connection refused"
                        Samples.refused)),
       Sim.empty).
Proof.
  split.
  - apply (ReadWithTimeout_timeout_distinguished Sim.listener Samples.second
             (Sim.listening []) (Sim.listening []) (Sim.listening []) (Sim.listening [])
             0%Z 0%Z net.nil_Addr Sim.errTimeout []);
      reflexivity.
  - apply (ReadWithTimeout_timeout_distinguished
             {| conn := MockICMPConn (0%Z, net.IPAddr_ptr Samples.peer, Some Samples.refused)
                          None None |}
             Samples.second Sim.empty Sim.empty Sim.empty Sim.empty
             0%Z 0%Z (net.IPAddr_ptr Samples.peer) Samples.refused
             (make_bytes MaxPacketSize));
      [reflexivity | reflexivity | reflexivity | discriminate].
Defined.

Lemma ReadWithTimeout_received_witness :
  ReadWithTimeout Sim.listener Samples.second
    (Sim.listening [(net.IPAddr_IP Samples.peer, Samples.oversized)])
  = (Returns (net.IPAddr_IP Samples.peer, replicate 1500 x2a, None), Sim.listening [])
  ∧ (∀ ip data w',
       ReadWithTimeout
         {| conn := MockICMPConn (10%Z, net.IPAddr_ptr Samples.peer, None) None None |}
         Samples.second Sim.empty
       = (Returns (ip, data, None), w') →
       data = replicate 10 x00 ∧ (Z.of_nat (length data) ≤ 1500)%Z).
Proof.
  split.
  - apply (proj2 (proj2 (ReadWithTimeout_received Sim.listener Samples.second
                    (Sim.listening [(net.IPAddr_IP Samples.peer, Samples.oversized)])))
             0%Z
             (Sim.listening [(net.IPAddr_IP Samples.peer, Samples.oversized)])
             (Sim.listening [(net.IPAddr_IP Samples.peer, Samples.oversized)])
             (Sim.listening []) Samples.peer Samples.oversized);
      reflexivity.
  - intros ip data w' Hrun.
    destruct (proj1 (proj2 (ReadWithTimeout_received _ _ _)) ip data w' Hrun)
      as (now & w0 & w1 & n & peer & stored & _ & _ & _ & _ & _ & _ & Hle).
    split; [|exact Hle].
    vm_compute in Hrun. by injection Hrun as _ <- _.
Defined.

(** * More of the package *)

(** ** The decoder: what it does not look at, and its failure on the envelope *)

Section DecoderMore.
Context `{C : Codec}.

(** X1.  When the envelope does not parse, the decoder returns the tag 0, which is
    the value of [ipv4.ICMPTypeEchoReply], no header, and an error that wraps
    the parser's error under the text ["failed to parse ICMP message: "]. *)
Theorem ParseICMPMessage_envelope_failure (msg : list byte) (err : error) :
  icmp_ParseMessage 1 msg = inr err →
  ∃ e,
    ParseICMPMessage msg = (ipv4.ICMPTypeEchoReply, None, Some e)
    ∧ Unwrap e = Some err
    ∧ Error e = "failed to parse ICMP message: " +:+ Error err.
Proof.
  intros E. unfold ParseICMPMessage. rewrite E.
  by exists (fmt_Errorf_w "failed to parse ICMP message: " err).
Qed.

(** X2.  The decoder looks at the type and the body of the parsed message only:
    two inputs whose envelopes parse to messages with the same type and the
    same body decode alike, whatever their codes and checksums. *)
Theorem ParseICMPMessage_ignores_code_and_checksum (msg msg' : list byte)
    (m m' : icmp.Message) :
  icmp_ParseMessage 1 msg = inl m →
  icmp_ParseMessage 1 msg' = inl m' →
  icmp.Type' m = icmp.Type' m' →
  icmp.Body m = icmp.Body m' →
  ParseICMPMessage msg = ParseICMPMessage msg'.
Proof.
  intros E E' Et Eb. unfold ParseICMPMessage, parseTimeExceededMessage.
  rewrite E, E', Et, Eb. done.
Qed.

(** X3.  [parseTimeExceededMessage] does not look at the type of the message it is
    given: it answers the Time-Exceeded tag in every case, a header exactly
    when it answers no error, and the same for two messages with the same
    body. *)
Theorem parseTimeExceededMessage_by_body (m : icmp.Message) :
  let '(typ, header, err) := parseTimeExceededMessage m in
  typ = ipv4.ICMPTypeTimeExceeded
  ∧ (is_Some header ↔ err = None)
  ∧ (∀ m', icmp.Body m' = icmp.Body m →
           parseTimeExceededMessage m' = (typ, header, err)).
Proof.
  unfold parseTimeExceededMessage.
  destruct (icmp.Body m) as [data| | | |] eqn:Eb;
    [destruct (ipv4_ParseHeader data) as [h|e] eqn:Eh|..].
  all: split_and!; [done| |].
  all: try (split; [by intros [? [=]]|by intros [=]]).
  all: try (split; [done|by eexists]).
  all: intros m' ->; by rewrite ?Eh.
Qed.

End DecoderMore.

Lemma ParseICMPMessage_envelope_failure_witness :
  (∃ e, @ParseICMPMessage Wire.codec [] = (0%Z, None, Some e)
        ∧ Unwrap e = Some (libError "message too short" None)
        ∧ Error e = "failed to parse ICMP message: message too short")
  ∧ (∃ e, @ParseICMPMessage Wire.codec Cases.truncated = (0%Z, None, Some e)
          ∧ Unwrap e = Some (libError "message too short" None)
          ∧ Error e = "failed to parse ICMP message: message too short").
Proof.
  split.
  - apply (ParseICMPMessage_envelope_failure (C:=Wire.codec) []
             (libError "message too short" None)); reflexivity.
  - apply (ParseICMPMessage_envelope_failure (C:=Wire.codec) Cases.truncated
             (libError "message too short" None)); reflexivity.
Defined.

Lemma ParseICMPMessage_ignores_code_and_checksum_witness :
  @ParseICMPMessage Wire.codec Cases.timeExceededCode1
  = @ParseICMPMessage Wire.codec Samples.timeExceeded.
Proof.
  eapply (ParseICMPMessage_ignores_code_and_checksum (C:=Wire.codec)
            Cases.timeExceededCode1 Samples.timeExceeded);
    reflexivity.
Defined.

(** ** The response listener: failures, panics and the fresh buffer *)

Lemma overwrite_make_bytes (n : Z) (stored : list byte) :
  overwrite (make_bytes n) stored
  = take (Z.to_nat n) stored ++ replicate (Z.to_nat n - length stored) x00.
Proof.
  unfold overwrite. rewrite make_bytes_length. unfold make_bytes.
  by rewrite drop_replicate.
Qed.

Lemma take_take_app (k n : nat) (l tail : list byte) :
  k ≤ n → take k (take n l ++ tail) = take k (l ++ tail) ∨ n < length l.
Proof.
  intros Hk. destruct (decide (length l ≤ n)) as [Hle|Hgt]; [left|right; lia].
  by rewrite (take_ge l n) by lia.
Qed.

Section ListenerMore.
Context {W T : Type} `{P : Platform W T}.

(** X4.  When arming the deadline fails, [ReadWithTimeout] returns an error wrapping
    that failure and leaves the world as the deadline call left it: it does
    not read.  A connection with another [ReadFrom] gives the same. *)
Theorem ReadWithTimeout_deadline_failure (c : ICMPConn W T) (timeout : Z)
    (w w0 w1 : W) (now : T) (err : error) :
  time_Now w = (Returns now, w0) →
  SetReadDeadline (conn c) (Time_Add now timeout) w0 = (Returns (Some err), w1) →
  ReadWithTimeout c timeout w
  = (Returns ([], [], Some (fmt_Errorf_w "failed to set read deadline: " err)), w1)
  ∧ (∀ c' : ICMPConn W T,
       SetReadDeadline (conn c') = SetReadDeadline (conn c) →
       ReadWithTimeout c' timeout w = ReadWithTimeout c timeout w).
Proof.
  intros Enow Edl.
  assert (∀ c' : ICMPConn W T,
            SetReadDeadline (conn c') = SetReadDeadline (conn c) →
            ReadWithTimeout c' timeout w
            = (Returns ([], [], Some (fmt_Errorf_w "failed to set read deadline: " err)),
               w1)) as Hany.
  { intros c' Hsame. unfold ReadWithTimeout.
    rewrite (run_bind_returns _ _ _ _ _ Enow), Hsame.
    by rewrite (run_bind_returns _ _ _ _ _ Edl). }
  split; [by apply Hany|].
  intros c' Hsame. by rewrite (Hany c' Hsame), (Hany c eq_refl).
Qed.


(** X6.  When the read answers no error and an address that is not a pointer to
    [net.IPAddr] (nil, or a UDP address), [ReadWithTimeout] panics. *)
Theorem ReadWithTimeout_panics_on_foreign_peer (c : ICMPConn W T) (timeout : Z)
    (w w0 w1 w2 : W) (now : T) (n : Z) (peer : net.Addr) (stored : list byte) :
  time_Now w = (Returns now, w0) →
  SetReadDeadline (conn c) (Time_Add now timeout) w0 = (Returns None, w1) →
  ReadFrom (conn c) (make_bytes MaxPacketSize) w1
  = (Returns (n, peer, None, stored), w2) →
  (∀ a, peer ≠ net.IPAddr_ptr a) →
  ∃ reason, ReadWithTimeout c timeout w = (Panics reason, w2).
Proof.
  intros Enow Edl Erd Hpeer. unfold ReadWithTimeout.
  rewrite (run_bind_returns _ _ _ _ _ Enow), (run_bind_returns _ _ _ _ _ Edl).
  rewrite (run_bind_returns _ _ _ _ _ Erd). cbn beta iota. rewrite run_bind.
  destruct peer as [|a|a]; [|by destruct (Hpeer a)|]; by eexists.
Qed.

(** X7.  When the read answers no error, the address of an IP peer, and a count
    that is negative or above [MaxPacketSize], [ReadWithTimeout] panics on
    the slice of its buffer. *)
Theorem ReadWithTimeout_panics_on_bad_count (c : ICMPConn W T) (timeout : Z)
    (w w0 w1 w2 : W) (now : T) (n : Z) (peer : net.IPAddr) (stored : list byte) :
  time_Now w = (Returns now, w0) →
  SetReadDeadline (conn c) (Time_Add now timeout) w0 = (Returns None, w1) →
  ReadFrom (conn c) (make_bytes MaxPacketSize) w1
  = (Returns (n, net.IPAddr_ptr peer, None, stored), w2) →
  (n < 0 ∨ MaxPacketSize < n)%Z →
  ReadWithTimeout c timeout w = (Panics "slice bounds out of range", w2).
Proof.
  intros Enow Edl Erd Hn. unfold ReadWithTimeout.
  rewrite (run_bind_returns _ _ _ _ _ Enow), (run_bind_returns _ _ _ _ _ Edl).
  rewrite (run_bind_returns _ _ _ _ _ Erd). cbn beta iota.
  rewrite run_bind. cbn [assert_IPAddr_IP]. rewrite run_ret, run_bind.
  unfold slice_to. rewrite overwrite_length, make_bytes_length.
  rewrite decide_False; [done|]. unfold MaxPacketSize in *. lia.
Qed.

(** X8.  The buffer is new at every call: when the read answers no error, an IP
    peer and a count [n] from 0 to [MaxPacketSize], the data returned are the
    first [n] of the bytes the read stored followed by zeros.  No byte of an
    earlier read is in them. *)
Theorem ReadWithTimeout_zero_filled (c : ICMPConn W T) (timeout : Z)
    (w w0 w1 w2 : W) (now : T) (n : Z) (peer : net.IPAddr) (stored : list byte) :
  time_Now w = (Returns now, w0) →
  SetReadDeadline (conn c) (Time_Add now timeout) w0 = (Returns None, w1) →
  ReadFrom (conn c) (make_bytes MaxPacketSize) w1
  = (Returns (n, net.IPAddr_ptr peer, None, stored), w2) →
  (0 ≤ n ≤ MaxPacketSize)%Z →
  ReadWithTimeout c timeout w
  = (Returns (net.IPAddr_IP peer,
              take (Z.to_nat n)
                (stored ++ replicate (Z.to_nat MaxPacketSize - length stored) x00),
              None), w2).
Proof.
  intros Enow Edl Erd Hn. unfold ReadWithTimeout.
  rewrite (run_bind_returns _ _ _ _ _ Enow), (run_bind_returns _ _ _ _ _ Edl).
  rewrite (run_bind_returns _ _ _ _ _ Erd). cbn beta iota.
  rewrite run_bind. cbn [assert_IPAddr_IP]. rewrite run_ret, run_bind.
  unfold slice_to. rewrite overwrite_length, make_bytes_length.
  rewrite decide_True by (unfold MaxPacketSize in *; lia).
  rewrite run_ret, overwrite_make_bytes.
  destruct (take_take_app (Z.to_nat n) (Z.to_nat MaxPacketSize) stored
              (replicate (Z.to_nat MaxPacketSize - length stored) x00)) as [->|Hlong];
    [lia|done|].
  replace (Z.to_nat MaxPacketSize - length stored) with 0 by lia.
  cbn [replicate]. rewrite !app_nil_r, take_take.
  by replace (Z.to_nat n `min` Z.to_nat MaxPacketSize) with (Z.to_nat n) by lia.
Qed.

(** X9.  [MockICMPConn] set up with a nil address, as the timeout case of
    [TestICMPConnReadWithTimeout] sets it up, panics in [ReadFrom]; so
    [ReadWithTimeout] on it panics, whatever count and error it was set up
    with, and returns no [read timeout]. *)
Theorem ReadWithTimeout_mock_nil_address (n : Z) (err close : option error)
    (timeout : Z) (w w0 : W) (now : T) :
  time_Now w = (Returns now, w0) →
  ReadWithTimeout {| conn := MockICMPConn (n, net.nil_Addr, err) None close |} timeout w
  = (Panics "interface conversion: interface is nil, not net.Addr", w0).
Proof.
  intros Enow. unfold ReadWithTimeout.
  rewrite (run_bind_returns _ _ _ _ _ Enow). done.
Qed.

(** X10.  [NewICMPConn] returns a connection or an error, never both and never
    neither: the connection is what [icmp.ListenPacket] on ["ipv4:icmp"] and
    ["0.0.0.0"] gave, the error wraps the one it gave. *)
Theorem NewICMPConn_result (w w' : W) (c : option (ICMPConn W T)) (e : option error) :
  NewICMPConn w = (Returns (c, e), w') →
  (is_Some c ↔ e = None)
  ∧ (∀ ic, c = Some ic →
           icmp_ListenPacket "ipv4:icmp" "0.0.0.0" w = (Returns (inl (conn ic)), w'))
  ∧ (∀ err, e = Some err →
            ∃ cause,
              icmp_ListenPacket "ipv4:icmp" "0.0.0.0" w = (Returns (inr cause), w')
              ∧ err = fmt_Errorf_w "failed to create ICMP connection: " cause
              ∧ Unwrap err = Some cause).
Proof.
  unfold NewICMPConn, AllInterfaces. rewrite run_bind.
  destruct (icmp_ListenPacket "ipv4:icmp" "0.0.0.0" w) as [[[pc|cause]|?] w1];
    [| |discriminate]; intros [= <- <- <-].
  - split_and!; [by split; [|eexists]| |done]. by intros ic [= <-].
  - split_and!; [split; [by intros [? [=]]|done]|done|].
    intros err [= <-]. by exists cause.
Qed.

End ListenerMore.

Lemma ReadWithTimeout_deadline_failure_witness :
  ReadWithTimeout Sim.listener Samples.second Cases.closedWithMail
  = (Returns ([], [],
              Some (wrapError "failed to set read deadline: use of closed network connection"
                      Sim.errClosed)),
     Cases.closedWithMail).
Proof.
  apply (ReadWithTimeout_deadline_failure Sim.listener Samples.second
           Cases.closedWithMail Cases.closedWithMail Cases.closedWithMail
           0%Z Sim.errClosed);
    reflexivity.
Defined.


Lemma ReadWithTimeout_panics_on_foreign_peer_witness :
  ∃ reason,
    ReadWithTimeout
      {| conn := MockICMPConn (5%Z, net.UDPAddr_ptr Samples.destination, None) None None |}
      Samples.second Sim.empty
    = (Panics reason, Sim.empty).
Proof.
  apply (ReadWithTimeout_panics_on_foreign_peer
           {| conn := MockICMPConn (5%Z, net.UDPAddr_ptr Samples.destination, None)
                        None None |}
           Samples.second Sim.empty Sim.empty Sim.empty Sim.empty 0%Z 5%Z
           (net.UDPAddr_ptr Samples.destination) (make_bytes MaxPacketSize));
    [reflexivity | reflexivity | reflexivity | discriminate].
Defined.

Lemma ReadWithTimeout_panics_on_bad_count_witness :
  ReadWithTimeout
    {| conn := MockICMPConn (2000%Z, net.IPAddr_ptr Samples.peer, None) None None |}
    Samples.second Sim.empty
  = (Panics "slice bounds out of range", Sim.empty).
Proof.
  apply (ReadWithTimeout_panics_on_bad_count
           {| conn := MockICMPConn (2000%Z, net.IPAddr_ptr Samples.peer, None) None None |}
           Samples.second Sim.empty Sim.empty Sim.empty Sim.empty 0%Z 2000%Z
           Samples.peer (make_bytes MaxPacketSize));
    [reflexivity | reflexivity | reflexivity | right; reflexivity].
Defined.

Lemma ReadWithTimeout_zero_filled_witness :
  ReadWithTimeout {| conn := Cases.shortReader |} Samples.second Sim.empty
  = (Returns (net.IPAddr_IP Samples.peer, [x0b; x00; xf4; x00; x00], None), Sim.empty)
  ∧ ReadWithTimeout
      {| conn := MockICMPConn (10%Z, net.IPAddr_ptr Samples.peer, None) None None |}
      Samples.second Sim.empty
    = (Returns (net.IPAddr_IP Samples.peer, replicate 10 x00, None), Sim.empty).
Proof.
  split.
  - apply (ReadWithTimeout_zero_filled {| conn := Cases.shortReader |}
             Samples.second Sim.empty Sim.empty Sim.empty Sim.empty 0%Z 5%Z
             Samples.peer Cases.shortStore);
      [reflexivity | reflexivity | reflexivity | split; discriminate].
  - apply (ReadWithTimeout_zero_filled
             {| conn := MockICMPConn (10%Z, net.IPAddr_ptr Samples.peer, None) None None |}
             Samples.second Sim.empty Sim.empty Sim.empty Sim.empty 0%Z 10%Z
             Samples.peer (make_bytes MaxPacketSize));
      [reflexivity | reflexivity | reflexivity | split; discriminate].
Defined.

Lemma ReadWithTimeout_mock_nil_address_witness :
  ReadWithTimeout
    {| conn := MockICMPConn (0%Z, net.nil_Addr, Some Sim.errTimeout) None None |}
    Samples.second Sim.empty
  = (Panics "interface conversion: interface is nil, not net.Addr", Sim.empty).
Proof.
  apply (ReadWithTimeout_mock_nil_address 0%Z (Some Sim.errTimeout) None
           Samples.second Sim.empty Sim.empty 0%Z).
  reflexivity.
Defined.

Lemma NewICMPConn_result_witness :
  NewICMPConn Sim.empty
  = (Returns (Some Sim.listener, None), Sim.set_open (λ s, {[0%N]} ∪ s) Sim.empty)
  ∧ icmp_ListenPacket "ipv4:icmp" "0.0.0.0" Sim.empty
    = (Returns (inl (Sim.packetConn 0)), Sim.set_open (λ s, {[0%N]} ∪ s) Sim.empty).
Proof.
  assert (NewICMPConn Sim.empty
          = (Returns (Some Sim.listener, None),
             Sim.set_open (λ s, {[0%N]} ∪ s) Sim.empty)) as Hrun by reflexivity.
  split; [exact Hrun|].
  destruct (NewICMPConn_result _ _ _ _ Hrun) as (_ & Hconn & _).
  exact (Hconn Sim.listener eq_refl).
Defined.

(** ** The probe sender: construction, release and the option call *)

Lemma int_small (x : Z) : (0 ≤ x < 2 ^ 63)%Z → int x = x.
Proof.
  intros Hx. unfold int.
  rewrite Z.mod_small by lia. lia.
Qed.

Section SenderMore.
Context {W T : Type} `{P : Platform W T}.


(** X12.  When [Control] runs the function it is given on the descriptor and
    answers nil, and the descriptor is below 2^63, [SetTTL] makes one call,
    [setsockopt] on that descriptor with level [IPPROTO_IP], option [IP_TTL]
    and the TTL as it was given, whatever integer it is; when that call
    succeeds [SetTTL] returns nil and leaves the world as the call left it,
    nothing being printed. *)
Theorem SetTTL_success (c : UDPConn W) (ttl : Z) (fd : uintptr) (w w1 : W) :
  (∀ f, Control (syscallConn c) f w = (f fd ≫= λ _, mret None) w) →
  (0 ≤ fd < 2 ^ 63)%Z →
  syscall_SetsockoptInt fd syscall_IPPROTO_IP syscall_IP_TTL ttl w = (Returns None, w1) →
  SetTTL c ttl w = (Returns None, w1).
Proof.
  intros Hcontrol Hfd Esys. unfold SetTTL. rewrite Hcontrol.
  unfold SetTTL_closure. rewrite int_small by done.
  rewrite run_bind, run_bind, Esys. done.
Qed.

(** The sockets that are open, and what is asked of the library about them. *)
Variable open : W → gset net.UDPConn.
Hypothesis ResolveUDPAddr_keeps :
  ∀ network address w r w',
    net_ResolveUDPAddr network address w = (r, w') → open w' = open w.
Hypothesis ListenUDP_opens :
  ∀ network laddr w conn w',
    net_ListenUDP network laddr w = (Returns (inl conn), w') →
    (conn ∉ open w) ∧ open w' = {[conn]} ∪ open w.
Hypothesis SyscallConn_keeps :
  ∀ conn w r w', net_UDPConn_SyscallConn conn w = (r, w') → open w' = open w.
Hypothesis Close_releases :
  ∀ conn w r w',
    net_UDPConn_Close conn w = (Returns r, w') → open w' = open w ∖ {[conn]}.

(** The calls behind a connection that [NewUDPConn] returned. *)
Lemma NewUDPConn_returns_conn (localAddr : string) (w w' : W) (c : UDPConn W)
    (e : option error) :
  NewUDPConn localAddr w = (Returns (Some c, e), w') →
  e = None
  ∧ ∃ addr w1 w2,
      net_ResolveUDPAddr "udp4" localAddr w = (Returns (inl addr), w1)
      ∧ net_ListenUDP "udp4" addr w1 = (Returns (inl (embedded_UDPConn c)), w2)
      ∧ net_UDPConn_SyscallConn (embedded_UDPConn c) w2
        = (Returns (inl (syscallConn c)), w').
Proof.
  unfold NewUDPConn. rewrite run_bind.
  destruct (net_ResolveUDPAddr "udp4" localAddr w) as [[[addr|cause]|?] w1] eqn:Eres;
    [|discriminate..].
  rewrite run_bind.
  destruct (net_ListenUDP "udp4" addr w1) as [[[conn|cause]|?] w2] eqn:Elis;
    [|discriminate..].
  rewrite run_bind.
  destruct (net_UDPConn_SyscallConn conn w2) as [[[raw|cause]|?] w3] eqn:Eraw;
    [| |discriminate].
  2:{ rewrite run_bind. by destruct (net_UDPConn_Close conn w3) as [[?|?] ?]. }
  intros [= <- <- <-]. split; [done|]. by exists addr, w1, w2.
Qed.

Lemma NewUDPConn_opens_one (localAddr : string) (w w' : W) (c : UDPConn W)
    (e : option error) :
  NewUDPConn localAddr w = (Returns (Some c, e), w') →
  (embedded_UDPConn c ∉ open w) ∧ open w' = {[embedded_UDPConn c]} ∪ open w.
Proof.
  intros (_ & addr & w1 & w2 & Eres & Elis & Eraw)%NewUDPConn_returns_conn.
  apply ResolveUDPAddr_keeps in Eres as Hopen1.
  apply ListenUDP_opens in Elis as Hopen2. destruct Hopen2 as [Hfresh Hopen2].
  apply SyscallConn_keeps in Eraw as Hopen3.
  split; [by rewrite <- Hopen1|by rewrite Hopen3, Hopen2, Hopen1].
Qed.

(** X13.  When [NewUDPConn] returns a connection it returns no error; the socket
    embedded in the connection is the one the bind gave, its [syscallConn] is
    the raw connection of that socket, and that socket, not open before, is
    open after and is the one socket opened. *)
Theorem NewUDPConn_success (localAddr : string) (w w' : W) (c : UDPConn W)
    (e : option error) :
  NewUDPConn localAddr w = (Returns (Some c, e), w') →
  e = None
  ∧ (∃ addr w1 w2,
       net_ResolveUDPAddr "udp4" localAddr w = (Returns (inl addr), w1)
       ∧ net_ListenUDP "udp4" addr w1 = (Returns (inl (embedded_UDPConn c)), w2)
       ∧ net_UDPConn_SyscallConn (embedded_UDPConn c) w2
         = (Returns (inl (syscallConn c)), w'))
  ∧ (embedded_UDPConn c ∉ open w)
  ∧ (embedded_UDPConn c ∈ open w')
  ∧ open w' = {[embedded_UDPConn c]} ∪ open w.
Proof.
  intros Enew.
  destruct (NewUDPConn_returns_conn _ _ _ _ _ Enew) as [He Hcalls].
  destruct (NewUDPConn_opens_one _ _ _ _ _ Enew) as [Hfresh Hopen].
  split_and!; try done.
  rewrite Hopen. by apply elem_of_union_l, elem_of_singleton_2.
Qed.

(** X14.  Opening and closing go round: after [NewUDPConn] has returned a
    connection and [Close] on that connection has returned, the socket is not
    open and the open sockets are those from before [NewUDPConn]. *)
Theorem NewUDPConn_then_Close (localAddr : string) (w w1 w2 : W) (c : UDPConn W)
    (e cerr : option error) :
  NewUDPConn localAddr w = (Returns (Some c, e), w1) →
  UDPConn_Close c w1 = (Returns cerr, w2) →
  (embedded_UDPConn c ∉ open w2) ∧ open w2 = open w.
Proof.
  intros Enew Eclose.
  destruct (NewUDPConn_opens_one _ _ _ _ _ Enew) as [Hfresh Hopen1].
  unfold UDPConn_Close in Eclose. apply Close_releases in Eclose as Hopen2.
  split.
  - rewrite Hopen2. intros [_ Hnot]%elem_of_difference.
    by apply Hnot, elem_of_singleton_2.
  - rewrite Hopen2, Hopen1. apply set_eq. intros x.
    rewrite elem_of_difference, elem_of_union, elem_of_singleton.
    split; [by intros [[->|?] ?]|].
    intros Hx. split; [by right|]. by intros ->.
Qed.

End SenderMore.

Lemma Sim_ResolveUDPAddr_keeps network address w r w' :
  Sim.ResolveUDPAddr network address w = (r, w') → Sim.open w' = Sim.open w.
Proof.
  unfold Sim.ResolveUDPAddr. by destruct (decide _); intros [= _ <-].
Qed.


Lemma SetTTL_success_witness :
  SetTTL Sim.sender 64 Sim.bound
  = (Returns None, Sim.set_ttl (<[0%N := 64%Z]>) Sim.bound)
  ∧ SetTTL Sim.sender (-1) Sim.bound
    = (Returns None, Sim.set_ttl (<[0%N := (-1)%Z]>) Sim.bound).
Proof.
  split.
  - apply (SetTTL_success Sim.sender 64 0%Z Sim.bound);
      [intros f; reflexivity | done | reflexivity].
  - apply (SetTTL_success Sim.sender (-1) 0%Z Sim.bound);
      [intros f; reflexivity | done | reflexivity].
Defined.

Lemma NewUDPConn_success_witness :
  NewUDPConn ":0" Sim.empty = (Returns (Some Sim.sender, None), Sim.bound)
  ∧ (0%N ∈ Sim.open Sim.bound)
  ∧ Sim.open Sim.bound = {[0%N]} ∪ Sim.open Sim.empty.
Proof.
  assert (NewUDPConn ":0" Sim.empty = (Returns (Some Sim.sender, None), Sim.bound))
    as Hrun by reflexivity.
  split; [exact Hrun|].
  destruct (NewUDPConn_success (P:=Sim.platform) Sim.open
              Sim_ResolveUDPAddr_keeps Sim_ListenUDP_opens Sim_SyscallConn_keeps
              _ _ _ _ _ Hrun) as (_ & _ & _ & Hin & Hopen).
  split; [exact Hin | exact Hopen].
Defined.

Lemma NewUDPConn_then_Close_witness :
  NewUDPConn ":0" Sim.empty = (Returns (Some Sim.sender, None), Sim.bound)
  ∧ UDPConn_Close Sim.sender Sim.bound
    = (Returns None, Sim.set_open (λ s, s ∖ {[0%N]}) Sim.bound)
  ∧ Sim.open (Sim.set_open (λ s, s ∖ {[0%N]}) Sim.bound) = Sim.open Sim.empty.
Proof.
  assert (NewUDPConn ":0" Sim.empty = (Returns (Some Sim.sender, None), Sim.bound))
    as Hrun by reflexivity.
  assert (UDPConn_Close Sim.sender Sim.bound
          = (Returns None, Sim.set_open (λ s, s ∖ {[0%N]}) Sim.bound))
    as Hclose by reflexivity.
  split_and!; [exact Hrun | exact Hclose |].
  exact (proj2 (NewUDPConn_then_Close (P:=Sim.platform) Sim.open
                  Sim_ResolveUDPAddr_keeps Sim_ListenUDP_opens Sim_SyscallConn_keeps
                  Sim_Close_releases _ _ _ _ _ _ _ Hrun Hclose)).
Defined.

